(** * go-city-distance: the geocoder, the haversine distance and the fan-in

    A shallow embedding of [city-distance.go].  The program asks a geocoding
    service for the coordinates of two place names, in two goroutines that
    report on one channel, and prints the great-circle distance between the
    two answers.

    - Go's [float64] and package [math] are an interface ([Float64]) with two
      instances: IEEE-754 binary64 (Rocq's primitive floats, the arithmetic
      the program runs on, every operation rounded on its own: no fused
      multiply-add) and exact real arithmetic (what the formulas mean).
    - [net/http], [encoding/json], [net/url] and [flag] are library code: the
      network's answers, the decoder and the escaping function are parameters.
    - Effects (standard output, HTTP requests, calls of [geoDistance], panics,
      [os.Exit]) are recorded by a small writer/outcome monad [Exec]. *)

From Stdlib Require Import ZArith QArith Qreals Reals Lia Lra Bool List String Ascii.
From Stdlib Require Import Floats Uint63.
Import ListNotations.

Set Implicit Arguments.

(** ** Go's float64 and package math *)

(** The operations [city-distance.go] uses on [float64]. [f_const] is the
    conversion of an untyped numeric constant to [float64]. *)
Class Float64 : Type := {
  float64 : Type;
  f_add : float64 -> float64 -> float64;
  f_sub : float64 -> float64 -> float64;
  f_mul : float64 -> float64 -> float64;
  f_div : float64 -> float64 -> float64;
  f_const : Q -> float64;
  math_Pi : float64;
  math_Sin : float64 -> float64;
  math_Cos : float64 -> float64;
  math_Sqrt : float64 -> float64;
  math_Atan2 : float64 -> float64 -> float64
}.

Declare Scope go_scope.
Delimit Scope go_scope with go.
Infix "+" := f_add : go_scope.
Infix "-" := f_sub : go_scope.
Infix "*" := f_mul : go_scope.
Infix "/" := f_div : go_scope.

(** *** Instance 1: IEEE-754 binary64 *)

(** An integer below 2^63 in absolute value, rounded to binary64. *)
Definition b64_of_Z (z : Z) : float :=
  match z with
  | Z0 => PrimFloat.zero
  | Zpos _ => PrimFloat.of_uint63 (Uint63.of_Z z)
  | Zneg p => PrimFloat.opp (PrimFloat.of_uint63 (Uint63.of_Z (Zpos p)))
  end.

(** A rational constant [n/d] rounded to the nearest binary64: one correctly
    rounded division, exact when [n] and [d] are below 2^53 (as every constant
    of the program is). *)
Definition b64_const (q : Q) : float :=
  PrimFloat.div (b64_of_Z (Qnum q)) (b64_of_Z (Zpos (Qden q))).

(** [math.Pi] as a float64. *)
Definition b64_Pi : float := 0x1.921fb54442d18p+1%float.

(** Neither NaN nor an infinity. *)
Definition b64_finite (x : float) : bool :=
  match Prim2SF x with
  | S754_zero _ | S754_finite _ _ _ => true
  | _ => false
  end.

(** [math.Sqrt] is the correctly rounded IEEE square root.  [math.Sin],
    [math.Cos] and [math.Atan2] are Go library code outside the repository:
    they are parameters of the instance. *)
Definition Binary64 (Sin Cos : float -> float) (Atan2 : float -> float -> float)
  : Float64 :=
  {| float64 := float;
     f_add := PrimFloat.add;
     f_sub := PrimFloat.sub;
     f_mul := PrimFloat.mul;
     f_div := PrimFloat.div;
     f_const := b64_const;
     math_Pi := b64_Pi;
     math_Sin := Sin;
     math_Cos := Cos;
     math_Sqrt := PrimFloat.sqrt;
     math_Atan2 := Atan2 |}.

(** *** Instance 2: exact real arithmetic *)

(** The two-argument arctangent: the angle of the point [(x, y)]. *)
Definition Ratan2 (y x : R) : R :=
  if Rlt_dec 0 x then atan (y / x)
  else if Rlt_dec x 0 then
    (if Rle_dec 0 y then atan (y / x) + PI else atan (y / x) - PI)%R
  else if Rlt_dec 0 y then (PI / 2)%R
  else if Rlt_dec y 0 then (- PI / 2)%R
  else 0%R.

Definition Exact : Float64 :=
  {| float64 := R;
     f_add := Rplus;
     f_sub := Rminus;
     f_mul := Rmult;
     f_div := Rdiv;
     f_const := Q2R;
     math_Pi := PI;
     math_Sin := sin;
     math_Cos := cos;
     math_Sqrt := R_sqrt.sqrt;
     math_Atan2 := Ratan2 |}.

(** ** The data model *)

Section DataModel.
Context {F : Float64}.

(** [GoogleGeocodingAPI]: the request object. *)
Record GoogleGeocodingAPI : Type := { APIKey : string }.

Definition Degree : Type := float64.

Record Location : Type := {
  Lat : Degree;
  Lng : Degree;
  Address : string
}.

(** The provider's response, as [encoding/json] fills it.  Go fields that
    share a name ([Lat], [Lng], [Location], [Geometry], [Types]) carry a
    prefix here. *)
Record GeoLocation : Type := { geo_Lat : Degree; geo_Lng : Degree }.

Record GeoLocationViewPort : Type := {
  Northeast : GeoLocation;
  Southwest : GeoLocation
}.

Record Geometry : Type := {
  geometry_Location : GeoLocation;
  LocationType : string;
  Viewport : GeoLocationViewPort;
  Bounds : GeoLocationViewPort
}.

Record AddressComponent : Type := {
  Longname : string;
  Shortname : string;
  component_Types : list string
}.

Record GoogleGeoResult : Type := {
  AddressComponents : list AddressComponent;
  FormattedAddress : string;
  result_Geometry : Geometry;
  result_Types : list string
}.

Record GoogleGeoAPIResponse : Type := {
  Status : string;
  Results : list GoogleGeoResult
}.

(** ** The distance engine *)

Definition EARTH_RADIUS : Q := 6371.

(** [func (d Degree) GetRadians() float64] *)
Definition GetRadians (d : Degree) : float64 :=
  (d * math_Pi / f_const 180)%go.

(** [func KM2Miles(dist float64) float64] *)
Definition KM2Miles (dist : float64) : float64 :=
  (dist * f_const 0.621371192)%go.

(** [func geoDistance(loc1, loc2 Location) float64].  The product in [a] is
    parsed from the left, as Go does. *)
Definition geoDistance (loc1 loc2 : Location) : float64 :=
  let phi1 := GetRadians (Lat loc1) in
  let phi2 := GetRadians (Lat loc2) in
  let deltaphi := GetRadians (Lat loc1 - Lat loc2)%go in
  let deltalambda := GetRadians (Lng loc1 - Lng loc2)%go in
  let a := (math_Sin (deltaphi / f_const 2) * math_Sin (deltaphi / f_const 2) +
            math_Cos phi1 * math_Cos phi2 *
              math_Sin (deltalambda / f_const 2) * math_Sin (deltalambda / f_const 2))%go in
  let c := (f_const 2 * math_Atan2 (math_Sqrt a) (math_Sqrt (f_const 1 - a)))%go in
  (f_const EARTH_RADIUS * c)%go.

End DataModel.

(** ** Effects: traces and outcomes *)

(** A Go [error] value.  The program only passes errors on; what matters is
    which call produced one. *)
Inductive error : Type :=
| TransportError (msg : string)
| DecodeError (msg : string).

(** What a goroutine can panic with. *)
Inductive PanicValue : Type :=
| NilDereference    (* runtime error: invalid memory address or nil pointer dereference *)
| IndexOutOfRange   (* runtime error: index out of range *)
| PanicError (e : error).

Inductive Outcome (A : Type) : Type :=
| Return (a : A)
| Panic (p : PanicValue)
| Exit (code : Z)
| Blocked.          (* a receive that no goroutine will ever serve *)

Arguments Return {A} a.
Arguments Panic {A} p.
Arguments Exit {A} code.
Arguments Blocked {A}.

(** What [http.Get] answers: a response body or a transport error. *)
Inductive HttpResult : Type :=
| HttpResponse (body : string)
| HttpError (e : error).

Definition nl : string := String "010"%char EmptyString.

(** A model of [net/url.QueryEscape], for the examples: letters, digits and
    [-_.~] stay, a space becomes [+], every other byte becomes [%XX]. *)
Definition unreserved (c : ascii) : bool :=
  let n := nat_of_ascii c in
  ((97 <=? n) && (n <=? 122) || (65 <=? n) && (n <=? 90) || (48 <=? n) && (n <=? 57)
   || (n =? 45) || (n =? 95) || (n =? 46) || (n =? 126))%nat.

Definition upperhex (n : nat) : ascii :=
  nth n (list_ascii_of_string "0123456789ABCDEF") "0"%char.

Fixpoint url_QueryEscape (s : string) : string :=
  match s with
  | EmptyString => EmptyString
  | String c s' =>
      if unreserved c then String c (url_QueryEscape s')
      else if (nat_of_ascii c =? 32)%nat then String "+"%char (url_QueryEscape s')
      else String "%"%char
             (String (upperhex (nat_of_ascii c / 16))
                (String (upperhex (nat_of_ascii c mod 16)) (url_QueryEscape s')))
  end.

Section Program.
Context {F : Float64}.

Inductive Event : Type :=
| HttpGet (url : string)                    (* one outbound GET *)
| Call_geoDistance (loc1 loc2 : Location)   (* an invocation of geoDistance *)
| Stdout (s : string)                       (* fmt.Fprint(os.Stdout, s) *)
| Stdout_PrintDefaults                      (* flag.PrintDefaults(), output set to os.Stdout *)
| Stdout_Printf_f (x : float64).            (* fmt.Printf("%f\n", x) *)

Definition Exec (A : Type) : Type := (list Event * Outcome A)%type.

Definition trace {A} (m : Exec A) : list Event := fst m.
Definition outcome {A} (m : Exec A) : Outcome A := snd m.

Definition ret {A} (a : A) : Exec A := ([], Return a).

Definition bind {A B} (m : Exec A) (k : A -> Exec B) : Exec B :=
  match m with
  | (t, Return a) => let (t', o) := k a in (t ++ t', o)
  | (t, Panic p) => (t, Panic p)
  | (t, Exit c) => (t, Exit c)
  | (t, Blocked) => (t, Blocked)
  end.

Definition emit (e : Event) : Exec unit := ([e], Return tt).
Definition panic {A} (p : PanicValue) : Exec A := ([], Panic p).
Definition os_Exit {A} (code : Z) : Exec A := ([], Exit code).
Definition blocked {A} : Exec A := ([], Blocked).

Notation "x <- m ;; k" := (bind m (fun x => k))
  (at level 61, m at next level, right associativity).
Notation "m ;;; k" := (bind m (fun _ => k))
  (at level 61, right associativity).

(** [*p]: dereferencing a nil pointer panics. *)
Definition deref {A} (p : option A) : Exec A :=
  match p with
  | Some a => ret a
  | None => panic NilDereference
  end.

(** [s[i]]: indexing outside the slice panics. *)
Definition index {A} (s : list A) (i : nat) : Exec A :=
  match nth_error s i with
  | Some a => ret a
  | None => panic IndexOutOfRange
  end.

(** ** The geocoder *)

Inductive DecodeResult : Type :=
| Decoded (r : GoogleGeoAPIResponse)
| DecodeFailed (e : error).

(** Library code the geocoder calls. *)
Variable QueryEscape : string -> string.        (* url.QueryEscape *)
Variable json_Decode : string -> DecodeResult.  (* json.NewDecoder(body).Decode(r) *)

Definition GOOGLE_API : string := "https://maps.googleapis.com/maps/api/geocode/json".

(** Lines 78-82 of [GetLocation]: the URL of the request. *)
Definition request_url (g : GoogleGeocodingAPI) (q : string) : string :=
  let request_url := (GOOGLE_API ++ "?sensor=false&address=" ++ QueryEscape q)%string in
  if (0 <? String.length (APIKey g))%nat
  then (request_url ++ "&key=" ++ APIKey g)%string
  else request_url.

(** [func (g GoogleGeocodingAPI) GetLocation(q string)], returning a Location pointer and an error.
    [http_Get] is the network's answer to this call. *)
Definition GetLocation (http_Get : string -> HttpResult)
    (g : GoogleGeocodingAPI) (q : string) : Exec (option Location * option error) :=
  let request_url := request_url g q in
  emit (HttpGet request_url) ;;;
  match http_Get request_url with
  | HttpError err => ret (None, Some err)
  | HttpResponse body =>
      match json_Decode body with
      | DecodeFailed err => ret (None, Some err)
      | Decoded r =>
          if (List.length (Results r) =? 0)%nat then ret (None, None)
          else
            r0 <- index (Results r) 0 ;;
            ret (Some {| Lat := geo_Lat (geometry_Location (result_Geometry r0));
                         Lng := geo_Lng (geometry_Location (result_Geometry r0));
                         Address := FormattedAddress r0 |}, None)
      end
  end.

(** ** The orchestrator *)

(** Which goroutine's send the receive loop serves first. *)
Inductive Schedule : Type := FirstQueryFirst | SecondQueryFirst.

(** The body of one goroutine: the lookup, its error dropped ([loc, _ := ...]),
    and the value it sends on [ch]. *)
Definition lookup (http_Get : string -> HttpResult)
    (g : GoogleGeocodingAPI) (q : string) : Exec (option Location) :=
  r <- GetLocation http_Get g q ;;
  ret (fst r).

(** The two goroutines run to their sends; the result is the sequence of
    values the channel delivers.  [net i] answers goroutine [i]. *)
Definition fan_out (net : nat -> string -> HttpResult) (sched : Schedule)
    (g : GoogleGeocodingAPI) (q1 q2 : string) : Exec (list (option Location)) :=
  match sched with
  | FirstQueryFirst =>
      a <- lookup (net 0%nat) g q1 ;; b <- lookup (net 1%nat) g q2 ;; ret [a; b]
  | SecondQueryFirst =>
      b <- lookup (net 1%nat) g q2 ;; a <- lookup (net 0%nat) g q1 ;; ret [b; a]
  end.

(** The receive loop [for { r := <-ch; ... }] over what the channel delivers. *)
Fixpoint receive_loop (unit : string) (locations ch : list (option Location))
  : Exec (float64 * option error) :=
  match ch with
  | [] => blocked
  | r :: ch' =>
      let locations := locations ++ [r] in
      if (List.length locations =? 2)%nat then
        p0 <- index locations 0 ;;
        l0 <- deref p0 ;;
        p1 <- index locations 1 ;;
        l1 <- deref p1 ;;
        emit (Call_geoDistance l0 l1) ;;;
        let dist := geoDistance l0 l1 in
        if (unit =? "miles")%string then ret (KM2Miles dist, None)
        else ret (dist, None)
      else receive_loop unit locations ch'
  end.

(** [func (g GoogleGeocodingAPI) GetDistance(q1, q2, unit string) (float64, error)] *)
Definition GetDistance (net : nat -> string -> HttpResult) (sched : Schedule)
    (g : GoogleGeocodingAPI) (q1 q2 unit : string) : Exec (float64 * option error) :=
  ch <- fan_out net sched g q1 q2 ;;
  receive_loop unit [] ch.

(** ** The command line *)

(** [flag.Usage], as [main] sets it. *)
Definition Usage : Exec unit :=
  emit (Stdout ("Usage: go-city-distance [OPTIONS] CITY-A CITY-B" ++ nl)) ;;;
  emit (Stdout ("       go-city-distance [ --help ]" ++ nl ++ nl)) ;;;
  emit (Stdout ("Find the distance between two cities." ++ nl ++ nl ++ "Options:" ++ nl)) ;;;
  emit Stdout_PrintDefaults.

(** [func main()] after [flag.Parse()] has stored the flags [unit] and
    [flHelp]; [os_Args] is [os.Args]. *)
Definition main (net : nat -> string -> HttpResult) (sched : Schedule)
    (unit : string) (flHelp : bool) (os_Args : list string) : Exec Datatypes.unit :=
  emit (Stdout (unit ++ nl)) ;;;
  (if negb (unit =? "km")%string && negb (unit =? "miles")%string
   then Usage ;;; os_Exit 1 else ret tt) ;;;
  if flHelp then Usage
  else
    (if (List.length os_Args <? 3)%nat then Usage ;;; os_Exit 1 else ret tt) ;;;
    let g := {| APIKey := "" |} in
    let argv := List.length os_Args in
    loc1 <- index os_Args (argv - 2) ;;
    loc2 <- index os_Args (argv - 1) ;;
    r <- GetDistance net sched g loc1 loc2 unit ;;
    match snd r with
    | Some err => panic (PanicError err)
    | None => emit (Stdout_Printf_f (fst r))
    end.

(** The exit status of the process. *)
Definition exit_status (o : Outcome unit) : Z :=
  match o with
  | Return _ => 0
  | Exit code => code
  | Panic _ => 2
  | Blocked => 2
  end.

(** The invocations of [geoDistance] and the HTTP requests in a trace. *)
Definition geoDistance_calls (t : list Event) : list (Location * Location) :=
  flat_map (fun e => match e with Call_geoDistance a b => [(a, b)] | _ => [] end) t.

Definition http_requests (t : list Event) : list string :=
  flat_map (fun e => match e with HttpGet u => [u] | _ => [] end) t.

End Program.

(** ** The distance formula in the words of the specification *)




(** ** A small world, for the examples *)

Section Examples.
Context {F : Float64}.

Definition candidate (lat lng : Q) (address : string) : GoogleGeoResult :=
  let nowhere := {| geo_Lat := f_const 0; geo_Lng := f_const 0 |} in
  let viewport := {| Northeast := nowhere; Southwest := nowhere |} in
  {| AddressComponents := [];
     FormattedAddress := address;
     result_Geometry := {| geometry_Location := {| geo_Lat := f_const lat; geo_Lng := f_const lng |};
                           LocationType := "APPROXIMATE";
                           Viewport := viewport;
                           Bounds := viewport |};
     result_Types := ["locality"%string; "political"%string] |}.

Definition London : Location :=
  {| Lat := f_const 51.5074; Lng := f_const (-0.1278); Address := "London, UK" |}.

Definition Paris : Location :=
  {| Lat := f_const 48.8566; Lng := f_const 2.3522; Address := "Paris, France" |}.

(** The decoder on four bodies; a body stands for the JSON text it names. *)
Definition example_Decode (body : string) : DecodeResult :=
  if (body =? "london.json")%string then
    Decoded {| Status := "OK";
               Results := [candidate 51.5074 (-0.1278) "London, UK";
                           candidate 42.9849 (-81.2453) "London, ON, Canada"] |}
  else if (body =? "paris.json")%string then
    Decoded {| Status := "OK"; Results := [candidate 48.8566 2.3522 "Paris, France"] |}
  else if (body =? "zero_results.json")%string then
    Decoded {| Status := "ZERO_RESULTS"; Results := [] |}
  else DecodeFailed (DecodeError "unexpected end of JSON input").

(** A network that knows London, Paris and a place nobody has heard of, cuts
    one answer short, and cannot be reached for anything else. *)
Definition example_net (goroutine : nat) (url : string) : HttpResult :=
  let endpoint := ("https://maps.googleapis.com/maps/api/geocode/json"
                     ++ "?sensor=false&address=")%string in
  if (url =? endpoint ++ "London")%string then HttpResponse "london.json"
  else if (url =? endpoint ++ "Paris")%string then HttpResponse "paris.json"
  else if (url =? endpoint ++ "Atlantis")%string then HttpResponse "zero_results.json"
  else if (url =? endpoint ++ "Truncated")%string then HttpResponse "truncated.json"
  else HttpError (TransportError "dial tcp: lookup maps.googleapis.com: no such host").

End Examples.

(** The zero value of [GoogleGeocodingAPI], as [main] declares it. *)
Definition no_key : GoogleGeocodingAPI := {| APIKey := "" |}.

(** Stand-ins for [math.Sin], [math.Cos] and [math.Atan2] in binary64, for
    the examples: the first terms of the series. *)
Definition series_Sin (x : float) : float := (x * (1 - x * x / 6))%float.
Definition series_Cos (x : float) : float := (1 - x * x / 2)%float.
Definition series_Atan2 (y x : float) : float := (y / x)%float.

(** * Properties *)

(** ** The geocoder *)

Section GeocoderFacts.
Context {F : Float64}.
Variable QueryEscape : string -> string.
Variable json_Decode : string -> DecodeResult.

(** [GetLocation] issues one request and returns: it never panics. *)
Lemma GetLocation_run (http_Get : string -> HttpResult) g q :
  exists r, GetLocation QueryEscape json_Decode http_Get g q = ([HttpGet (request_url QueryEscape g q)], Return r).
Proof.
  unfold GetLocation, bind, emit, ret; cbn.
  destruct (http_Get _) as [body|err]; [|eexists; reflexivity].
  destruct (json_Decode body) as [r|err]; [|eexists; reflexivity].
  destruct (Results r) as [|r0 rs]; cbn; eexists; reflexivity.
Qed.

Lemma GetLocation_outcome_inv (http_Get : string -> HttpResult) g q r :
  outcome (GetLocation QueryEscape json_Decode http_Get g q) = Return r ->
  GetLocation QueryEscape json_Decode http_Get g q = ([HttpGet (request_url QueryEscape g q)], Return r).
Proof.
  destruct (GetLocation_run http_Get g q) as [r' E].
  rewrite E; cbn. intros H; inversion H; reflexivity.
Qed.

(** An error never comes with a location. *)
Lemma GetLocation_error_has_no_location (http_Get : string -> HttpResult) g q loc err :
  outcome (GetLocation QueryEscape json_Decode http_Get g q) = Return (loc, Some err) -> loc = None.
Proof.
  unfold GetLocation, bind, emit, ret, outcome; cbn.
  destruct (http_Get _) as [body|e]; [|cbn; congruence].
  destruct (json_Decode body) as [r|e]; [|cbn; congruence].
  destruct (Results r) as [|r0 rs]; cbn; congruence.
Qed.

(** C7. When the response parses, [GetLocation] answers NotFound ([nil, nil])
    for an empty candidate list, and otherwise the latitude, longitude and
    formatted address of the first candidate, with a nil error. *)
Theorem GetLocation_first_candidate
    (http_Get : string -> HttpResult) g q body (r : GoogleGeoAPIResponse) :
  http_Get (request_url QueryEscape g q) = HttpResponse body ->
  json_Decode body = Decoded r ->
  outcome (GetLocation QueryEscape json_Decode http_Get g q) =
  Return (match Results r with
          | [] => (None, None)
          | first :: _ =>
              (Some {| Lat := geo_Lat (geometry_Location (result_Geometry first));
                       Lng := geo_Lng (geometry_Location (result_Geometry first));
                       Address := FormattedAddress first |}, None)
          end).
Proof.
  intros Hget Hdec.
  unfold GetLocation, bind, emit, ret, outcome; cbn.
  rewrite Hget, Hdec.
  destruct (Results r) as [|first rest]; reflexivity.
Qed.

(** C8. [GetLocation] sends exactly one GET, to the geocoding endpoint with
    [sensor=false] and [address=] the escaped query; [&key=k] follows exactly
    when the key [k] is not empty. *)
Theorem GetLocation_request (http_Get : string -> HttpResult) g q :
  trace (GetLocation QueryEscape json_Decode http_Get g q) =
  [HttpGet (if (APIKey g =? "")%string
            then "https://maps.googleapis.com/maps/api/geocode/json"
                   ++ "?sensor=false&address=" ++ QueryEscape q
            else ("https://maps.googleapis.com/maps/api/geocode/json"
                   ++ "?sensor=false&address=" ++ QueryEscape q)
                   ++ "&key=" ++ APIKey g)%string].
Proof.
  destruct (GetLocation_run http_Get g q) as [r E]. rewrite E; cbn.
  unfold request_url.
  destruct (APIKey g); reflexivity.
Qed.

End GeocoderFacts.

(** ** The orchestrator *)

Section OrchestratorFacts.
Context {F : Float64}.
Variable QueryEscape : string -> string.
Variable json_Decode : string -> DecodeResult.
Variable net : nat -> string -> HttpResult.

(** The receive loop over the two values the goroutines send: it returns
    after the second receive, or panics on the first nil pointer. *)
Lemma receive_loop_two (unit : string) (a b : option Location) :
  receive_loop unit [] [a; b] =
  match a, b with
  | Some l0, Some l1 =>
      ([Call_geoDistance l0 l1],
       Return (if (unit =? "miles")%string
               then KM2Miles (geoDistance l0 l1) else geoDistance l0 l1, None))
  | _, _ => ([], Panic NilDereference)
  end.
Proof.
  destruct a as [l0|], b as [l1|]; cbn; try reflexivity.
  destruct (unit =? "miles")%string; reflexivity.
Qed.

(** [GetDistance] in terms of what the two lookups return. *)
Lemma GetDistance_run sched g q1 q2 unit r1 r2 :
  outcome (GetLocation QueryEscape json_Decode (net 0%nat) g q1) = Return r1 ->
  outcome (GetLocation QueryEscape json_Decode (net 1%nat) g q2) = Return r2 ->
  GetDistance QueryEscape json_Decode net sched g q1 q2 unit =
  match sched with
  | FirstQueryFirst =>
      ([HttpGet (request_url QueryEscape g q1); HttpGet (request_url QueryEscape g q2)]
         ++ trace (receive_loop unit [] [fst r1; fst r2]),
       outcome (receive_loop unit [] [fst r1; fst r2]))
  | SecondQueryFirst =>
      ([HttpGet (request_url QueryEscape g q2); HttpGet (request_url QueryEscape g q1)]
         ++ trace (receive_loop unit [] [fst r2; fst r1]),
       outcome (receive_loop unit [] [fst r2; fst r1]))
  end.
Proof.
  intros H1 H2.
  apply GetLocation_outcome_inv in H1. apply GetLocation_outcome_inv in H2.
  unfold GetDistance, fan_out, lookup.
  destruct sched; rewrite H1, H2; unfold bind, ret; cbn [fst snd app];
    rewrite receive_loop_two;
    destruct (fst r1), (fst r2); reflexivity.
Qed.

(** A nil location from either goroutine makes the receive loop panic before
    [geoDistance] is entered. *)
Lemma GetDistance_nil_location sched g q1 q2 unit r1 r2 :
  outcome (GetLocation QueryEscape json_Decode (net 0%nat) g q1) = Return r1 ->
  outcome (GetLocation QueryEscape json_Decode (net 1%nat) g q2) = Return r2 ->
  fst r1 = None \/ fst r2 = None ->
  outcome (GetDistance QueryEscape json_Decode net sched g q1 q2 unit) = Panic NilDereference /\
  geoDistance_calls (trace (GetDistance QueryEscape json_Decode net sched g q1 q2 unit)) = [].
Proof.
  intros H1 H2 Hnil.
  rewrite (@GetDistance_run sched g q1 q2 unit _ _ H1 H2).
  destruct sched; rewrite receive_loop_two;
    destruct (fst r1), (fst r2), Hnil; try discriminate; split; reflexivity.
Qed.

(** Both lookups found a place: [GetDistance] calls [geoDistance] once, on
    the two locations in the order the channel delivered them. *)
Lemma GetDistance_found sched g q1 q2 unit A B :
  outcome (GetLocation QueryEscape json_Decode (net 0%nat) g q1) = Return (Some A, None) ->
  outcome (GetLocation QueryEscape json_Decode (net 1%nat) g q2) = Return (Some B, None) ->
  outcome (GetDistance QueryEscape json_Decode net sched g q1 q2 unit) =
  Return (let dist := match sched with
                      | FirstQueryFirst => geoDistance A B
                      | SecondQueryFirst => geoDistance B A
                      end in
          if (unit =? "miles")%string then KM2Miles dist else dist, None).
Proof.
  intros H1 H2.
  rewrite (@GetDistance_run sched g q1 q2 unit _ _ H1 H2).
  destruct sched; rewrite receive_loop_two; reflexivity.
Qed.

(** X1. The error [GetDistance] returns is nil on every path. *)
Lemma GetDistance_error_is_nil sched g q1 q2 unit d e :
  outcome (GetDistance QueryEscape json_Decode net sched g q1 q2 unit) <> Return (d, Some e).
Proof.
  destruct (GetLocation_run QueryEscape json_Decode (net 0%nat) g q1) as [r1 E1].
  destruct (GetLocation_run QueryEscape json_Decode (net 1%nat) g q2) as [r2 E2].
  rewrite (@GetDistance_run sched g q1 q2 unit r1 r2) by (rewrite ?E1, ?E2; reflexivity).
  destruct sched; rewrite receive_loop_two;
    destruct (fst r1), (fst r2); cbn; congruence.
Qed.

(** X2. A lookup that failed hands the loop a nil pointer: the error is
    dropped in the goroutine and [GetDistance] panics. *)
Lemma GetDistance_lookup_error_panics sched g q1 q2 unit :
  (exists loc err, outcome (GetLocation QueryEscape json_Decode (net 0%nat) g q1)
                   = Return (loc, Some err)) \/
  (exists loc err, outcome (GetLocation QueryEscape json_Decode (net 1%nat) g q2)
                   = Return (loc, Some err)) ->
  outcome (GetDistance QueryEscape json_Decode net sched g q1 q2 unit) = Panic NilDereference.
Proof.
  destruct (GetLocation_run QueryEscape json_Decode (net 0%nat) g q1) as [r1 E1].
  destruct (GetLocation_run QueryEscape json_Decode (net 1%nat) g q2) as [r2 E2].
  intros H.
  apply (@GetDistance_nil_location sched g q1 q2 unit r1 r2);
    [rewrite E1; reflexivity | rewrite E2; reflexivity | ].
  destruct H as [(loc & err & H)|(loc & err & H)]; [left|right];
    pose proof (GetLocation_error_has_no_location _ _ _ _ _ H) as ->;
    [rewrite E1 in H | rewrite E2 in H]; cbn in H; inversion H; reflexivity.
Qed.

(** C1. If either lookup answers NotFound ([nil, nil]), [GetDistance] ends in
    a fault, the nil-pointer panic of the dereference, and [geoDistance] is
    not invoked at all. *)
Theorem GetDistance_not_found_faults sched g q1 q2 unit :
  outcome (GetLocation QueryEscape json_Decode (net 0%nat) g q1) = Return (None, None) \/
  outcome (GetLocation QueryEscape json_Decode (net 1%nat) g q2) = Return (None, None) ->
  outcome (GetDistance QueryEscape json_Decode net sched g q1 q2 unit) = Panic NilDereference /\
  geoDistance_calls (trace (GetDistance QueryEscape json_Decode net sched g q1 q2 unit)) = [].
Proof.
  destruct (GetLocation_run QueryEscape json_Decode (net 0%nat) g q1) as [r1 E1].
  destruct (GetLocation_run QueryEscape json_Decode (net 1%nat) g q2) as [r2 E2].
  intros H.
  apply (@GetDistance_nil_location sched g q1 q2 unit r1 r2);
    [rewrite E1; reflexivity | rewrite E2; reflexivity | ].
  destruct H as [H|H]; [left; rewrite E1 in H | right; rewrite E2 in H];
    cbn in H; inversion H; reflexivity.
Qed.

(** C5. For two resolved locations, the distance [GetDistance] reports in
    miles is the distance it reports in kilometers times 0.621371192. *)
Theorem GetDistance_miles_is_km_times_constant sched g q1 q2 A B :
  outcome (GetLocation QueryEscape json_Decode (net 0%nat) g q1) = Return (Some A, None) ->
  outcome (GetLocation QueryEscape json_Decode (net 1%nat) g q2) = Return (Some B, None) ->
  exists km : float64,
    outcome (GetDistance QueryEscape json_Decode net sched g q1 q2 "km") = Return (km, None) /\
    outcome (GetDistance QueryEscape json_Decode net sched g q1 q2 "miles")
    = Return ((km * f_const 0.621371192)%go, None).
Proof.
  intros H1 H2.
  eexists; split; rewrite (@GetDistance_found sched g q1 q2 _ A B H1 H2); reflexivity.
Qed.

(** C10. For two resolved locations and any unit string other than "miles",
    [GetDistance] returns the kilometers of [geoDistance] unchanged, with a nil
    error: the unit is not validated. *)
Theorem GetDistance_other_units_are_km sched g q1 q2 unit A B :
  unit <> "miles"%string ->
  outcome (GetLocation QueryEscape json_Decode (net 0%nat) g q1) = Return (Some A, None) ->
  outcome (GetLocation QueryEscape json_Decode (net 1%nat) g q2) = Return (Some B, None) ->
  outcome (GetDistance QueryEscape json_Decode net sched g q1 q2 unit) =
  Return (match sched with
          | FirstQueryFirst => geoDistance A B
          | SecondQueryFirst => geoDistance B A
          end, None).
Proof.
  intros Hunit H1 H2.
  rewrite (@GetDistance_found sched g q1 q2 unit A B H1 H2).
  apply String.eqb_neq in Hunit. cbv zeta. rewrite Hunit. reflexivity.
Qed.

End OrchestratorFacts.

(** ** The command line *)

Section MainFacts.
Context {F : Float64}.
Variable QueryEscape : string -> string.
Variable json_Decode : string -> DecodeResult.
Variable net : nat -> string -> HttpResult.


End MainFacts.

(** ** The distance engine *)

(** *** The formula, in exact arithmetic *)

Lemma Q2R_integer (n : Z) : Q2R (inject_Z n) = IZR n.
Proof. unfold Q2R, inject_Z; cbn. rewrite Rinv_1. apply Rmult_1_r. Qed.


(** *** Range and degenerate cases, in exact arithmetic *)

Ltac exact_arith :=
  unfold geoDistance, GetRadians, EARTH_RADIUS; cbn;
  change 180%Q with (inject_Z 180); change 2%Q with (inject_Z 2);
  change 1%Q with (inject_Z 1); change 6371%Q with (inject_Z 6371);
  rewrite !Q2R_integer.





(** For instance, in exact arithmetic the antipodal points (0, 0) and
    (0, 180) are half a circumference apart. *)
Lemma geoDistance_exact_antipodal (address1 address2 : string) :
  geoDistance (@Build_Location Exact 0%R 0%R address1)
              (@Build_Location Exact 0%R 180%R address2)
  = (6371 * PI)%R.
Proof.
  exact_arith.
  replace ((0 - 0) * PI / 180 / 2)%R with 0%R by (unfold Rdiv; ring).
  replace ((0 - 180) * PI / 180 / 2)%R with (- (PI / 2))%R by field.
  replace (0 * PI / 180)%R with 0%R by (unfold Rdiv; ring).
  rewrite sin_0, cos_0, sin_neg, sin_PI2.
  replace (0 * 0 + 1 * 1 * - (1) * - (1))%R with 1%R by ring.
  replace (1 - 1)%R with 0%R by ring.
  rewrite sqrt_0, sqrt_1.
  unfold Ratan2. destruct (Rlt_dec 0 0); [lra|]. destruct (Rlt_dec 0 1); [|lra].
  field.
Qed.

(** *** Symmetry *)

(** Swapping the two points negates both differences.  The distance does not
    change in any arithmetic where negation passes through products and
    quotients and the sine is odd; binary64 and the reals are two such. *)
Section SignSymmetry.
Context {F : Float64}.
Variable opp : float64 -> float64.
Hypothesis mul_comm : forall x y, (x * y = y * x)%go.
Hypothesis mul_opp_l : forall x y, (opp x * y = opp (x * y))%go.
Hypothesis div_opp_l : forall x y, (opp x / y = opp (x / y))%go.
Hypothesis opp_involutive : forall x, opp (opp x) = x.
Hypothesis sub_swap : forall x y, (y - x = opp (x - y) \/ y - x = x - y)%go.
Hypothesis Sin_odd : forall x, math_Sin (opp x) = opp (math_Sin x).

Lemma mul_opp_opp x y : (opp x * opp y = x * y)%go.
Proof.
  rewrite mul_opp_l, (mul_comm x (opp y)), mul_opp_l, opp_involutive.
  apply mul_comm.
Qed.

Lemma GetRadians_opp d : GetRadians (opp d) = opp (GetRadians d).
Proof. unfold GetRadians. rewrite mul_opp_l, div_opp_l. reflexivity. Qed.

Lemma half_angle_sine_swap x y :
  let s := math_Sin (GetRadians (x - y) / f_const 2)%go in
  let s' := math_Sin (GetRadians (y - x) / f_const 2)%go in
  s' = opp s \/ s' = s.
Proof.
  cbv zeta. destruct (sub_swap x y) as [E|E]; rewrite E; [left|right; reflexivity].
  rewrite GetRadians_opp, div_opp_l, Sin_odd. reflexivity.
Qed.

Lemma mul_opp_twice k s : (k * opp s * opp s = k * s * s)%go.
Proof.
  rewrite (mul_comm k (opp s)), mul_opp_l, (mul_comm s k).
  apply mul_opp_opp.
Qed.

Lemma geoDistance_swap (loc1 loc2 : Location) :
  geoDistance loc1 loc2 = geoDistance loc2 loc1.
Proof.
  unfold geoDistance; cbv zeta.
  rewrite (mul_comm (math_Cos (GetRadians (Lat loc2))) (math_Cos (GetRadians (Lat loc1)))).
  destruct (half_angle_sine_swap (Lat loc1) (Lat loc2)) as [E1|E1];
    destruct (half_angle_sine_swap (Lng loc1) (Lng loc2)) as [E2|E2];
    rewrite E1, E2, ?mul_opp_opp, ?mul_opp_twice; reflexivity.
Qed.

End SignSymmetry.

(** The laws in binary64, from the specification of the primitive floats. *)
Section IEEE.
Variables prec emax : Z.

Lemma binary_round_aux_negb s m e l :
  binary_round_aux prec emax (negb s) m e l = SFopp (binary_round_aux prec emax s m e l).
Proof.
  unfold binary_round_aux.
  destruct (shr_fexp prec emax m e l) as [mrs' e'].
  destruct (shr_fexp prec emax _ e' loc_Exact) as [mrs'' e''].
  destruct (shr_m mrs''); cbn; try reflexivity.
  destruct (Z.leb e'' (emax - prec)); reflexivity.
Qed.

Lemma SFopp_involutive x : SFopp (SFopp x) = x.
Proof. destruct x; cbn; rewrite ?negb_involutive; reflexivity. Qed.

Lemma SFmul_comm x y : SFmul prec emax x y = SFmul prec emax y x.
Proof.
  destruct x as [sx|sx| |sx mx ex], y as [sy|sy| |sy my ey]; cbn;
    rewrite ?(xorb_comm sx sy), ?(Pos.mul_comm mx my), ?(Z.add_comm ex ey); reflexivity.
Qed.

Lemma SFmul_opp_l x y : SFmul prec emax (SFopp x) y = SFopp (SFmul prec emax x y).
Proof.
  destruct x as [sx|sx| |sx mx ex], y as [sy|sy| |sy my ey]; cbn;
    rewrite <- ?negb_xorb_l; try reflexivity.
  apply binary_round_aux_negb.
Qed.

Lemma SFdiv_opp_l x y : SFdiv prec emax (SFopp x) y = SFopp (SFdiv prec emax x y).
Proof.
  destruct x as [sx|sx| |sx mx ex], y as [sy|sy| |sy my ey]; cbn;
    rewrite <- ?negb_xorb_l; try reflexivity.
  destruct (SFdiv_core_binary prec emax (Z.pos mx) ex (Z.pos my) ey) as [[mz ez] lz].
  apply binary_round_aux_negb.
Qed.

Lemma binary_normalize_opp m e :
  m <> 0%Z ->
  binary_normalize prec emax (- m) e false = SFopp (binary_normalize prec emax m e false).
Proof.
  destruct m as [|p|p]; intros H; [congruence| |]; cbn; unfold binary_round;
    destruct (shl_align _ _ _) as [mz ez].
  - apply (binary_round_aux_negb false).
  - rewrite <- (SFopp_involutive (binary_round_aux prec emax false _ _ _)).
    f_equal. symmetry. apply (binary_round_aux_negb false).
Qed.

(** [y - x] is the negation of [x - y], except that both are [+0] when the
    difference is zero. *)
Lemma SFsub_swap x y :
  SFsub prec emax y x = SFopp (SFsub prec emax x y) \/
  SFsub prec emax y x = SFsub prec emax x y.
Proof.
  destruct x as [sx|sx| |sx mx ex], y as [sy|sy| |sy my ey]; cbn;
    try (destruct sx, sy; cbn; auto; fail);
    try (destruct sx; cbn; auto; fail);
    try (destruct sy; cbn; auto; fail); auto.
  rewrite (Z.min_comm ey ex).
  set (a := cond_Zopp sx _). set (b := cond_Zopp sy _).
  destruct (Z.eq_dec (a - b) 0) as [E|E].
  - right. replace (b - a)%Z with 0%Z by lia. rewrite E. reflexivity.
  - left. replace (b - a)%Z with (- (a - b))%Z by lia.
    apply binary_normalize_opp; exact E.
Qed.

End IEEE.

Lemma b64_mul_comm x y : (x * y = y * x)%float.
Proof. apply Prim2SF_inj. rewrite !FloatAxioms.mul_spec. apply SFmul_comm. Qed.

Lemma b64_mul_opp_l x y : (- x * y = - (x * y))%float.
Proof. apply Prim2SF_inj. rewrite FloatAxioms.opp_spec, !FloatAxioms.mul_spec, FloatAxioms.opp_spec. apply SFmul_opp_l. Qed.

Lemma b64_div_opp_l x y : (- x / y = - (x / y))%float.
Proof. apply Prim2SF_inj. rewrite FloatAxioms.opp_spec, !FloatAxioms.div_spec, FloatAxioms.opp_spec. apply SFdiv_opp_l. Qed.

Lemma b64_opp_involutive x : (- - x = x)%float.
Proof. apply Prim2SF_inj. rewrite !FloatAxioms.opp_spec. apply SFopp_involutive. Qed.

Lemma b64_sub_swap x y : (y - x = - (x - y) \/ y - x = x - y)%float.
Proof.
  destruct (SFsub_swap prec emax (Prim2SF x) (Prim2SF y)) as [H|H]; [left|right];
    apply Prim2SF_inj; rewrite ?FloatAxioms.opp_spec, !FloatAxioms.sub_spec; exact H.
Qed.

(** C6. In binary64, with an odd [math.Sin] (Go's negates the result for a
    negative argument), [geoDistance] gives the same float64 for (A, B) and
    for (B, A): the same bits, NaN for both or for neither. *)
Theorem geoDistance_symmetric
    (Sin Cos : float -> float) (Atan2 : float -> float -> float)
    (Sin_odd : forall x, Sin (- x)%float = (- Sin x)%float)
    (A B : @Location (Binary64 Sin Cos Atan2)) :
  geoDistance A B = geoDistance B A.
Proof.
  apply (@geoDistance_swap (Binary64 Sin Cos Atan2) PrimFloat.opp).
  - exact b64_mul_comm.
  - exact b64_mul_opp_l.
  - exact b64_div_opp_l.
  - exact b64_opp_involutive.
  - exact b64_sub_swap.
  - exact Sin_odd.
Qed.

Lemma b64_mul_opp_opp x y : (- x * - y = x * y)%float.
Proof.
  exact (@mul_opp_opp (Binary64 series_Sin series_Cos series_Atan2) PrimFloat.opp
           b64_mul_comm b64_mul_opp_l b64_opp_involutive x y).
Qed.

Lemma series_Sin_odd x : series_Sin (- x)%float = (- series_Sin x)%float.
Proof. unfold series_Sin. rewrite b64_mul_opp_opp. apply b64_mul_opp_l. Qed.

Lemma geoDistance_symmetric_witness :
  @geoDistance (Binary64 series_Sin series_Cos series_Atan2) London Paris
  = @geoDistance (Binary64 series_Sin series_Cos series_Atan2) Paris London.
Proof.
  exact (@geoDistance_symmetric series_Sin series_Cos series_Atan2 series_Sin_odd
           London Paris).
Defined.


(** *** Identical points, in binary64 *)

Local Open Scope Z_scope.

Lemma iter_pos_invariant {A : Type} (f : A -> A) (P : A -> Prop) :
  (forall x, P x -> P (f x)) -> forall n x, P x -> P (iter_pos f n x).
Proof.
  intros Hf. induction n as [n IH|n IH|]; intros x Hx; cbn; auto.
Qed.

Lemma shr_1_range (B : Z) mrs : 0 <= shr_m mrs <= B -> 0 <= shr_m (shr_1 mrs) <= B.
Proof.
  destruct mrs as [m r s]; cbn.
  destruct m as [|[p|p|]|[p|p|]]; cbn; lia.
Qed.

Lemma shr_range (B : Z) mrs e n :
  0 <= shr_m mrs <= B ->
  0 <= shr_m (fst (shr mrs e n)) <= B /\ snd (shr mrs e n) <= Z.max e (e + n).
Proof.
  intros H. unfold shr. destruct n as [|p|p]; cbn [fst snd]; try (split; [assumption | lia]).
  split; [| lia].
  apply (iter_pos_invariant shr_1 (fun mrs => 0 <= shr_m mrs <= B)); [|assumption].
  intros x; apply shr_1_range.
Qed.

Lemma digits2_pos_upper p : forall n, Zpos p < 2 ^ n -> Zpos (digits2_pos p) <= n.
Proof.
  induction p as [p IH|p IH|]; intros n Hn; cbn [digits2_pos].
  - assert (0 < n) by (destruct n; cbn in Hn; lia).
    replace n with (Z.succ (n - 1)) in Hn by lia. rewrite Z.pow_succ_r in Hn by lia.
    specialize (IH (n - 1)). rewrite Pos2Z.inj_succ. lia.
  - assert (0 < n) by (destruct n; cbn in Hn; lia).
    replace n with (Z.succ (n - 1)) in Hn by lia. rewrite Z.pow_succ_r in Hn by lia.
    specialize (IH (n - 1)). rewrite Pos2Z.inj_succ. lia.
  - destruct n; cbn in Hn; lia.
Qed.

Lemma digits2_pos_lower p : Zpos p < 2 ^ Zpos (digits2_pos p).
Proof.
  induction p as [p IH|p IH|]; cbn [digits2_pos];
    rewrite ?Pos2Z.inj_succ, ?Z.pow_succ_r by lia; lia.
Qed.

Lemma Zdigits2_upper z n : 0 <= z < 2 ^ n -> 0 <= n -> Zdigits2 z <= n.
Proof.
  destruct z as [|p|p]; cbn; intros [H0 H1] Hn; [lia | | lia].
  apply digits2_pos_upper; assumption.
Qed.

Lemma round_nearest_even_range m l : 0 <= m -> 0 <= round_nearest_even m l <= m + 1.
Proof. destruct l as [|[]]; cbn; intros; try lia. destruct (Z.even m); lia. Qed.

(** A product below 2^106 * 2^-104 does not overflow. *)
Lemma binary_round_aux_small s p ex :
  Zpos p < 2 ^ 106 -> ex <= -104 ->
  binary_round_aux prec emax s (Zpos p) ex loc_Exact = S754_zero s \/
  exists m e, binary_round_aux prec emax s (Zpos p) ex loc_Exact = S754_finite s m e.
Proof.
  intros Hp Hex. unfold binary_round_aux, shr_fexp.
  pose proof (@shr_range (Zpos p) (shr_record_of_loc (Zpos p) loc_Exact) ex
                (fexp prec emax (Zdigits2 (Zpos p) + ex) - ex)) as H1.
  destruct (shr _ ex _) as [mrs' e']. cbn [fst snd] in H1.
  destruct H1 as [Hm' He']; [cbn; lia|].
  pose proof (@round_nearest_even_range (shr_m mrs') (loc_of_shr_record mrs')) as Hr.
  set (m1 := round_nearest_even _ _) in *.
  pose proof (@shr_range (Zpos p + 1) (shr_record_of_loc m1 loc_Exact) e'
                (fexp prec emax (Zdigits2 m1 + e') - e')) as H2.
  destruct (shr _ e' _) as [mrs'' e'']. cbn [fst snd] in H2.
  destruct H2 as [Hm'' He'']; [cbn; lia|].
  assert (Hd : Zdigits2 (Zpos p) <= 106) by (apply Zdigits2_upper; lia).
  assert (Hd1 : Zdigits2 m1 <= 107).
  { apply Zdigits2_upper; [|lia]. change (2 ^ 107) with (2 * 2 ^ 106). lia. }
  unfold fexp, emin, prec, emax in *.
  destruct (shr_m mrs'') as [|m|m]; [left; reflexivity | right | lia].
  replace (e'' <=? 1024 - 53) with true by (symmetry; apply Z.leb_le; lia).
  eauto.
Qed.

Lemma valid_mantissa_bound m e : bounded prec emax m e = true -> Zpos m < 2 ^ 53.
Proof.
  unfold bounded, canonical_mantissa, fexp, emin, prec, emax.
  intros H. apply andb_prop in H as [H _]. apply Z.eqb_eq in H.
  pose proof (digits2_pos_lower m) as Hl.
  assert (Hd : Zpos (digits2_pos m) <= 53) by lia.
  apply Z.lt_le_trans with (1 := Hl).
  apply Z.pow_le_mono_r; lia.
Qed.

(** The square of a float64 of magnitude at most 1 is a non-negative finite
    number or zero. *)
Lemma SFmul_self_small x :
  SpecFloat.valid_binary prec emax x = true ->
  SFleb (SFabs x) (Prim2SF 1) = true ->
  SFmul prec emax x x = S754_zero false \/
  exists m e, SFmul prec emax x x = S754_finite false m e.
Proof.
  destruct x as [s|s| |s m e]; cbn [SpecFloat.valid_binary SFabs SFmul]; intros Hv Hle.
  - left. rewrite xorb_nilpotent. reflexivity.
  - discriminate.
  - discriminate.
  - rewrite xorb_nilpotent.
    apply binary_round_aux_small.
    + pose proof (@valid_mantissa_bound _ _ Hv) as Hm.
      rewrite Pos2Z.inj_mul. change (2 ^ 106) with (2 ^ 53 * 2 ^ 53). nia.
    + change (Prim2SF 1) with (S754_finite false 4503599627370496 (-52)) in Hle.
      unfold SFleb, SFcompare in Hle.
      destruct (Z.compare_spec e (-52)); try lia; discriminate.
Qed.

Lemma b64_sub_diag x : b64_finite x = true -> (x - x = 0)%float.
Proof.
  unfold b64_finite. intros H. apply Prim2SF_inj. rewrite FloatAxioms.sub_spec.
  change (Prim2SF 0) with (S754_zero false).
  destruct (Prim2SF x) as [s|s| |s m e]; try discriminate; cbn.
  - destruct s; reflexivity.
  - rewrite Z.sub_diag. reflexivity.
Qed.

Lemma b64_square_times_zero c :
  (abs c <=? 1)%float = true -> (c * c * 0 * 0 = 0)%float.
Proof.
  intros H. rewrite FloatAxioms.leb_spec, FloatAxioms.abs_spec in H.
  destruct (@SFmul_self_small (Prim2SF c) (Prim2SF_valid c) H) as [E|(m & e & E)];
    apply Prim2SF_inj; rewrite !FloatAxioms.mul_spec; unfold SF64mul; rewrite E;
    reflexivity.
Qed.

(** X7. In binary64 the distance from a point with finite coordinates to
    itself is [+0], given three facts about the library: [math.Sin(0) = 0],
    [math.Atan2(0, 1) = 0], and a cosine of the latitude within [-1, 1]. *)
Lemma geoDistance_b64_identical
    (Sin Cos : float -> float) (Atan2 : float -> float -> float)
    (A : @Location (Binary64 Sin Cos Atan2)) :
  Sin 0%float = 0%float ->
  Atan2 0%float 1%float = 0%float ->
  b64_finite (Lat A) = true ->
  b64_finite (Lng A) = true ->
  (abs (Cos (GetRadians (Lat A))) <=? 1)%float = true ->
  geoDistance A A = 0%float.
Proof.
  intros HSin HAtan2 HLat HLng HCos.
  cbv [geoDistance GetRadians Binary64 f_sub f_mul f_add f_div f_const
       math_Sin math_Cos math_Sqrt math_Atan2 math_Pi EARTH_RADIUS] in *.
  rewrite (@b64_sub_diag _ HLat), (@b64_sub_diag _ HLng).
  change (0 * b64_Pi / b64_const 180 / b64_const 2)%float with 0%float.
  rewrite HSin, (@b64_square_times_zero _ HCos).
  change (0 * 0 + 0)%float with 0%float.
  change (PrimFloat.sqrt 0%float) with 0%float.
  change (PrimFloat.sqrt (b64_const 1 - 0)%float) with 1%float.
  rewrite HAtan2.
  reflexivity.
Qed.

Local Close Scope Z_scope.

(** ** The properties at work on the example world *)

Lemma GetLocation_first_candidate_witness :
  outcome (@GetLocation Exact url_QueryEscape example_Decode (example_net 0) no_key "London")
  = Return (Some London, None).
Proof.
  exact (@GetLocation_first_candidate Exact url_QueryEscape example_Decode
           (example_net 0) no_key "London" "london.json" _ eq_refl eq_refl).
Defined.

Lemma GetDistance_not_found_faults_witness :
  outcome (@GetDistance Exact url_QueryEscape example_Decode example_net
             SecondQueryFirst no_key "Atlantis" "Paris" "km") = Panic NilDereference /\
  geoDistance_calls
    (trace (@GetDistance Exact url_QueryEscape example_Decode example_net
              SecondQueryFirst no_key "Atlantis" "Paris" "km")) = [].
Proof.
  apply (@GetDistance_not_found_faults Exact url_QueryEscape example_Decode example_net
           SecondQueryFirst no_key "Atlantis" "Paris" "km").
  left. reflexivity.
Defined.

Lemma GetDistance_miles_is_km_times_constant_witness :
  exists km : R,
    outcome (@GetDistance Exact url_QueryEscape example_Decode example_net
               FirstQueryFirst no_key "London" "Paris" "km") = Return (km, None) /\
    outcome (@GetDistance Exact url_QueryEscape example_Decode example_net
               FirstQueryFirst no_key "London" "Paris" "miles")
    = Return ((km * Q2R 0.621371192)%R, None).
Proof.
  apply (@GetDistance_miles_is_km_times_constant Exact url_QueryEscape example_Decode
           example_net FirstQueryFirst no_key "London" "Paris" London Paris);
    reflexivity.
Defined.

Lemma GetDistance_other_units_are_km_witness :
  outcome (@GetDistance Exact url_QueryEscape example_Decode example_net
             SecondQueryFirst no_key "London" "Paris" "furlongs")
  = Return (geoDistance Paris London, None).
Proof.
  apply (@GetDistance_other_units_are_km Exact url_QueryEscape example_Decode
           example_net SecondQueryFirst no_key "London" "Paris" "furlongs" London Paris);
    [discriminate | reflexivity | reflexivity].
Defined.

(** C2, at two failing inputs.  One lookup cannot reach the provider, another
    gets a body that does not parse: [GetLocation] returns the error, the
    goroutine drops it, and [GetDistance] ends in the nil-pointer panic
    whichever answer arrives first.  The error never reaches the caller. *)
Theorem GetDistance_loses_lookup_error (sched : Schedule) :
  outcome (@GetLocation Exact url_QueryEscape example_Decode (example_net 1) no_key "Unreachable")
    = Return (None, Some (TransportError
                            "dial tcp: lookup maps.googleapis.com: no such host")) /\
  outcome (@GetDistance Exact url_QueryEscape example_Decode example_net
             sched no_key "Paris" "Unreachable" "km") = Panic NilDereference /\
  outcome (@GetLocation Exact url_QueryEscape example_Decode (example_net 0) no_key "Truncated")
    = Return (None, Some (DecodeError "unexpected end of JSON input")) /\
  outcome (@GetDistance Exact url_QueryEscape example_Decode example_net
             sched no_key "Truncated" "Paris" "km") = Panic NilDereference.
Proof. destruct sched; repeat split; reflexivity. Qed.



Lemma geoDistance_b64_identical_witness :
  @geoDistance (Binary64 series_Sin series_Cos series_Atan2) London London = 0%float.
Proof.
  apply (@geoDistance_b64_identical series_Sin series_Cos series_Atan2 London);
    reflexivity.
Defined.

Lemma GetDistance_lookup_error_panics_witness :
  outcome (@GetDistance Exact url_QueryEscape example_Decode example_net
             FirstQueryFirst no_key "Paris" "Unreachable" "miles") = Panic NilDereference.
Proof.
  apply (@GetDistance_lookup_error_panics Exact url_QueryEscape example_Decode example_net
           FirstQueryFirst no_key "Paris" "Unreachable" "miles").
  right. eexists. eexists. reflexivity.
Defined.

(** ** Runs *)

Example url_QueryEscape_example :
  url_QueryEscape "New York, NY" = "New+York%2C+NY"%string.
Proof. reflexivity. Qed.

Example request_url_example :
  request_url url_QueryEscape {| APIKey := "secret" |} "New York"
  = ("https://maps.googleapis.com/maps/api/geocode/json"
       ++ "?sensor=false&address=New+York&key=secret")%string.
Proof. reflexivity. Qed.

(** The conversion constant as a float64. *)
Example KM2Miles_binary64 (Sin Cos : float -> float) (Atan2 : float -> float -> float)
    (dist : float) :
  @KM2Miles (Binary64 Sin Cos Atan2) dist = (dist * 0x1.3e245d68a2112p-1)%float.
Proof. reflexivity. Qed.

(** [go-city-distance --unit=miles London Paris]: the unit, two requests, one
    call of [geoDistance], the distance in miles, exit status 0. *)
Example main_London_Paris :
  @main Exact url_QueryEscape example_Decode example_net FirstQueryFirst "miles" false
    ["go-city-distance"; "--unit=miles"; "London"; "Paris"]%string
  = ([Stdout ("miles" ++ nl);
      HttpGet ("https://maps.googleapis.com/maps/api/geocode/json"
                 ++ "?sensor=false&address=London");
      HttpGet ("https://maps.googleapis.com/maps/api/geocode/json"
                 ++ "?sensor=false&address=Paris");
      Call_geoDistance London Paris;
      Stdout_Printf_f (KM2Miles (geoDistance London Paris))],
     Return tt).
Proof. reflexivity. Qed.

(** [go-city-distance Atlantis Paris]: the unit is printed, then the process
    dies of the nil-pointer panic with exit status 2. *)
Example main_Atlantis_Paris (sched : Schedule) :
  let run := @main Exact url_QueryEscape example_Decode example_net sched "km" false
               ["go-city-distance"; "Atlantis"; "Paris"]%string in
  outcome run = Panic NilDereference /\ exit_status (outcome run) = 2%Z /\
  geoDistance_calls (trace run) = [].
Proof. destruct sched; repeat split; reflexivity. Qed.

(** * Further properties of the code *)

(** ** The geocoder: errors and result shapes *)

Section GeocoderEdges.
Context {F : Float64}.
Variable QueryEscape : string -> string.
Variable json_Decode : string -> DecodeResult.

(** X8. [GetLocation] returns an error exactly when the transport or the decoder
    failed, and then it is that error, with a nil location. *)
Theorem GetLocation_error_iff (http_Get : string -> HttpResult) g q loc err :
  outcome (GetLocation QueryEscape json_Decode http_Get g q) = Return (loc, Some err) <->
  loc = None /\
  (http_Get (request_url QueryEscape g q) = HttpError err \/
   exists body, http_Get (request_url QueryEscape g q) = HttpResponse body /\
                json_Decode body = DecodeFailed err).
Proof.
  unfold GetLocation, bind, emit, ret, outcome; cbn.
  destruct (http_Get _) as [body|e]; cbn.
  - destruct (json_Decode body) as [r|e] eqn:Hdec; cbn.
    + destruct (Results r) as [|r0 rs]; cbn; split.
      * discriminate.
      * intros [_ [H|(b & H & H')]]; [discriminate|]. inversion H; subst. congruence.
      * discriminate.
      * intros [_ [H|(b & H & H')]]; [discriminate|]. inversion H; subst. congruence.
    + split.
      * intros H; inversion H; subst. split; [reflexivity|]. right. eauto.
      * intros [-> [H|(b & H & H')]]; [discriminate|]. inversion H; subst.
        rewrite Hdec in H'. inversion H'; reflexivity.
  - split.
    + intros H; inversion H; subst. auto.
    + intros [-> [H|(b & H & _)]]; [inversion H; reflexivity | discriminate].
Qed.


End GeocoderEdges.

(** ** The orchestrator: requests, outcomes and the receive loop *)

Section OrchestratorEdges.
Context {F : Float64}.
Variable QueryEscape : string -> string.
Variable json_Decode : string -> DecodeResult.
Variable net : nat -> string -> HttpResult.

(** Every run of [GetDistance], by what the two goroutines send. *)
Lemma GetDistance_cases sched g q1 q2 unit :
  exists (a b : option Location) (e1 e2 : option error),
    outcome (GetLocation QueryEscape json_Decode (net 0%nat) g q1) = Return (a, e1) /\
    outcome (GetLocation QueryEscape json_Decode (net 1%nat) g q2) = Return (b, e2) /\
    GetDistance QueryEscape json_Decode net sched g q1 q2 unit =
    match sched with
    | FirstQueryFirst =>
        ([HttpGet (request_url QueryEscape g q1); HttpGet (request_url QueryEscape g q2)]
           ++ trace (receive_loop unit [] [a; b]),
         outcome (receive_loop unit [] [a; b]))
    | SecondQueryFirst =>
        ([HttpGet (request_url QueryEscape g q2); HttpGet (request_url QueryEscape g q1)]
           ++ trace (receive_loop unit [] [b; a]),
         outcome (receive_loop unit [] [b; a]))
    end.
Proof.
  destruct (GetLocation_run QueryEscape json_Decode (net 0%nat) g q1) as [[a e1] E1].
  destruct (GetLocation_run QueryEscape json_Decode (net 1%nat) g q2) as [[b e2] E2].
  exists a, b, e1, e2.
  split; [rewrite E1; reflexivity|]. split; [rewrite E2; reflexivity|].
  apply (@GetDistance_run F QueryEscape json_Decode net sched g q1 q2 unit (a, e1) (b, e2));
    [rewrite E1 | rewrite E2]; reflexivity.
Qed.



(** X12. The receive loop blocks exactly when fewer than two values arrive; values
    after the second are never received. *)
Theorem receive_loop_blocks_iff (unit : string) (ch : list (option Location)) :
  (outcome (receive_loop unit [] ch) = Blocked <-> (List.length ch < 2)%nat) /\
  receive_loop unit [] ch = receive_loop unit [] (firstn 2 ch).
Proof.
  destruct ch as [|a [|b rest]].
  - cbn. split; [split; [lia | reflexivity] | reflexivity].
  - cbn. split; [split; [lia | reflexivity] | reflexivity].
  - change (firstn 2 (a :: b :: rest)) with [a; b].
    assert (E : receive_loop unit [] (a :: b :: rest) = receive_loop unit [] [a; b]).
    { destruct a, b; reflexivity. }
    rewrite E, receive_loop_two. split; [|reflexivity].
    destruct a, b; cbn; split; (discriminate || lia).
Qed.

End OrchestratorEdges.

(** ** The orchestrator: independence of order *)

(** With a symmetric [geoDistance], what [GetDistance] returns depends neither
    on which goroutine reports first nor on the order of the two queries. *)
Section OrderIndependence.
Context {F : Float64}.
Variable QueryEscape : string -> string.
Variable json_Decode : string -> DecodeResult.
Hypothesis geoDistance_sym : forall A B : Location, geoDistance A B = geoDistance B A.

Lemma receive_loop_two_swap (unit : string) (a b : option Location) :
  outcome (receive_loop unit [] [a; b]) = outcome (receive_loop unit [] [b; a]).
Proof.
  rewrite !receive_loop_two.
  destruct a as [A|], b as [B|]; cbn; try reflexivity.
  rewrite (geoDistance_sym A B). reflexivity.
Qed.

Lemma GetDistance_schedule_swap (net : nat -> string -> HttpResult) g q1 q2 unit :
  outcome (GetDistance QueryEscape json_Decode net FirstQueryFirst g q1 q2 unit) =
  outcome (GetDistance QueryEscape json_Decode net SecondQueryFirst g q1 q2 unit).
Proof.
  destruct (GetLocation_run QueryEscape json_Decode (net 0%nat) g q1) as [r1 E1].
  destruct (GetLocation_run QueryEscape json_Decode (net 1%nat) g q2) as [r2 E2].
  rewrite !(@GetDistance_run F QueryEscape json_Decode net _ g q1 q2 unit r1 r2)
    by (rewrite ?E1, ?E2; reflexivity).
  apply receive_loop_two_swap.
Qed.

Lemma GetLocation_ext (get get' : string -> HttpResult) g q :
  get (request_url QueryEscape g q) = get' (request_url QueryEscape g q) ->
  GetLocation QueryEscape json_Decode get g q = GetLocation QueryEscape json_Decode get' g q.
Proof. intros H. unfold GetLocation. rewrite H. reflexivity. Qed.

Lemma GetDistance_query_swap (net : nat -> string -> HttpResult) sched g q1 q2 unit :
  (forall url, net 0%nat url = net 1%nat url) ->
  outcome (GetDistance QueryEscape json_Decode net sched g q1 q2 unit) =
  outcome (GetDistance QueryEscape json_Decode net sched g q2 q1 unit).
Proof.
  intros Hnet.
  destruct (GetLocation_run QueryEscape json_Decode (net 0%nat) g q1) as [r1 E1].
  destruct (GetLocation_run QueryEscape json_Decode (net 1%nat) g q2) as [r2 E2].
  assert (E1' : GetLocation QueryEscape json_Decode (net 1%nat) g q1
                = ([HttpGet (request_url QueryEscape g q1)], Return r1))
    by (rewrite <- E1; apply GetLocation_ext; symmetry; apply Hnet).
  assert (E2' : GetLocation QueryEscape json_Decode (net 0%nat) g q2
                = ([HttpGet (request_url QueryEscape g q2)], Return r2))
    by (rewrite <- E2; apply GetLocation_ext; apply Hnet).
  rewrite (@GetDistance_run F QueryEscape json_Decode net sched g q1 q2 unit r1 r2)
    by (rewrite ?E1, ?E2; reflexivity).
  rewrite (@GetDistance_run F QueryEscape json_Decode net sched g q2 q1 unit r2 r1)
    by (rewrite ?E1', ?E2'; reflexivity).
  destruct sched; cbn [snd]; apply receive_loop_two_swap.
Qed.

End OrderIndependence.

Lemma geoDistance_b64_swap
    (Sin Cos : float -> float) (Atan2 : float -> float -> float)
    (Sin_odd : forall x, Sin (- x)%float = (- Sin x)%float)
    (A B : @Location (Binary64 Sin Cos Atan2)) :
  geoDistance A B = geoDistance B A.
Proof.
  apply (@geoDistance_swap (Binary64 Sin Cos Atan2) PrimFloat.opp);
    [ exact b64_mul_comm | exact b64_mul_opp_l | exact b64_div_opp_l
    | exact b64_opp_involutive | exact b64_sub_swap | exact Sin_odd ].
Qed.

(** X13. In binary64 with an odd [math.Sin], the float64 [GetDistance] returns (or
    its panic) does not depend on which lookup reports first. *)
Theorem GetDistance_arrival_order_irrelevant
    (Sin Cos : float -> float) (Atan2 : float -> float -> float)
    (QueryEscape : string -> string)
    (json_Decode : string -> @DecodeResult (Binary64 Sin Cos Atan2))
    (net : nat -> string -> HttpResult) g q1 q2 unit :
  (forall x, Sin (- x)%float = (- Sin x)%float) ->
  outcome (GetDistance QueryEscape json_Decode net FirstQueryFirst g q1 q2 unit) =
  outcome (GetDistance QueryEscape json_Decode net SecondQueryFirst g q1 q2 unit).
Proof.
  intros Sin_odd. apply GetDistance_schedule_swap.
  intros A B. apply geoDistance_b64_swap. exact Sin_odd.
Qed.

(** X14. In binary64 with an odd [math.Sin], on a network that answers both
    goroutines alike, [GetDistance(q1, q2)] and [GetDistance(q2, q1)] end the
    same way, with the same float64. *)
Theorem GetDistance_query_order_irrelevant
    (Sin Cos : float -> float) (Atan2 : float -> float -> float)
    (QueryEscape : string -> string)
    (json_Decode : string -> @DecodeResult (Binary64 Sin Cos Atan2))
    (net : nat -> string -> HttpResult) sched g q1 q2 unit :
  (forall x, Sin (- x)%float = (- Sin x)%float) ->
  (forall url, net 0%nat url = net 1%nat url) ->
  outcome (GetDistance QueryEscape json_Decode net sched g q1 q2 unit) =
  outcome (GetDistance QueryEscape json_Decode net sched g q2 q1 unit).
Proof.
  intros Sin_odd Hnet. apply GetDistance_query_swap; [|exact Hnet].
  intros A B. apply geoDistance_b64_swap. exact Sin_odd.
Qed.

Lemma GetDistance_arrival_order_irrelevant_witness :
  outcome (@GetDistance (Binary64 series_Sin series_Cos series_Atan2)
             url_QueryEscape example_Decode example_net FirstQueryFirst no_key
             "London" "Paris" "miles") =
  outcome (@GetDistance (Binary64 series_Sin series_Cos series_Atan2)
             url_QueryEscape example_Decode example_net SecondQueryFirst no_key
             "London" "Paris" "miles").
Proof.
  exact (@GetDistance_arrival_order_irrelevant series_Sin series_Cos series_Atan2
           url_QueryEscape example_Decode example_net no_key "London" "Paris" "miles"
           series_Sin_odd).
Defined.

Lemma GetDistance_query_order_irrelevant_witness :
  outcome (@GetDistance (Binary64 series_Sin series_Cos series_Atan2)
             url_QueryEscape example_Decode example_net FirstQueryFirst no_key
             "London" "Paris" "km") =
  outcome (@GetDistance (Binary64 series_Sin series_Cos series_Atan2)
             url_QueryEscape example_Decode example_net FirstQueryFirst no_key
             "Paris" "London" "km").
Proof.
  exact (@GetDistance_query_order_irrelevant series_Sin series_Cos series_Atan2
           url_QueryEscape example_Decode example_net FirstQueryFirst no_key
           "London" "Paris" "km" series_Sin_odd (fun url => eq_refl)).
Defined.

(** ** The command line: every path of [main] *)

Section MainEdges.
Context {F : Float64}.
Variable QueryEscape : string -> string.
Variable json_Decode : string -> DecodeResult.
Variable net : nat -> string -> HttpResult.

Lemma index_in_range {A : Type} (s : list A) (i : nat) (d : A) :
  (i < List.length s)%nat -> index (F := F) s i = ret (nth i s d).
Proof.
  intros H. unfold index.
  destruct (nth_error s i) as [a|] eqn:E.
  - rewrite (nth_error_nth s i d E). reflexivity.
  - apply nth_error_None in E. lia.
Qed.

(** What [main] does before it looks anything up. *)
Lemma main_usage_path sched unit flHelp os_Args :
  (negb (unit =? "km") && negb (unit =? "miles"))%string = true \/
  flHelp = true \/ (List.length os_Args < 3)%nat ->
  main QueryEscape json_Decode net sched unit flHelp os_Args =
  (Stdout (unit ++ nl) :: trace (Usage (F := F)),
   if (negb (unit =? "km") && negb (unit =? "miles"))%string then Exit 1
   else if flHelp then Return tt else Exit 1).
Proof.
  intros H. unfold main.
  destruct (negb (unit =? "km") && negb (unit =? "miles"))%string; [reflexivity|].
  destruct flHelp; [reflexivity|].
  destruct H as [H|[H|H]]; try discriminate.
  apply Nat.ltb_lt in H. rewrite H. reflexivity.
Qed.

(** [GetDistance] ends in a distance with a nil error or in the nil-pointer
    panic. *)
Lemma GetDistance_ends sched g q1 q2 unit :
  exists t,
    GetDistance QueryEscape json_Decode net sched g q1 q2 unit = (t, Panic NilDereference) \/
    exists d, GetDistance QueryEscape json_Decode net sched g q1 q2 unit = (t, Return (d, None)).
Proof.
  destruct (GetLocation_run QueryEscape json_Decode (net 0%nat) g q1) as [r1 E1].
  destruct (GetLocation_run QueryEscape json_Decode (net 1%nat) g q2) as [r2 E2].
  rewrite (@GetDistance_run F QueryEscape json_Decode net sched g q1 q2 unit r1 r2)
    by (rewrite ?E1, ?E2; reflexivity).
  destruct sched; rewrite receive_loop_two;
    destruct (fst r1), (fst r2); cbn [trace outcome fst snd]; eauto.
Qed.

(** What [main] does once the unit is valid, [--help] is unset and there are
    at least three arguments: the two last arguments are looked up without a
    key, and the distance is printed if [GetDistance] returns. *)
Lemma main_lookup_path sched unit os_Args :
  (negb (unit =? "km") && negb (unit =? "miles"))%string = false ->
  (3 <= List.length os_Args)%nat ->
  let run := GetDistance QueryEscape json_Decode net sched {| APIKey := "" |}
               (nth (List.length os_Args - 2) os_Args ""%string)
               (nth (List.length os_Args - 1) os_Args ""%string) unit in
  main QueryEscape json_Decode net sched unit false os_Args =
  match outcome run with
  | Return (d, None) =>
      (Stdout (unit ++ nl) :: trace run ++ [Stdout_Printf_f d], Return tt)
  | _ => (Stdout (unit ++ nl) :: trace run, Panic NilDereference)
  end.
Proof.
  intros Hunit Hlen. cbv zeta. unfold main. rewrite Hunit.
  replace (List.length os_Args <? 3)%nat with false by (symmetry; apply Nat.ltb_ge; lia).
  rewrite (@index_in_range _ os_Args (List.length os_Args - 2) ""%string) by lia.
  rewrite (@index_in_range _ os_Args (List.length os_Args - 1) ""%string) by lia.
  set (q1 := nth (List.length os_Args - 2) os_Args ""%string).
  set (q2 := nth (List.length os_Args - 1) os_Args ""%string).
  destruct (GetDistance_ends sched {| APIKey := "" |} q1 q2 unit) as [t [E|[d E]]];
    unfold bind, emit, ret; rewrite E; reflexivity.
Qed.

(** X15. The exit status of every run: 1 for a unit that is neither "km" nor
    "miles", else 0 for [--help], else 1 for fewer than three arguments, else
    0 if [GetDistance] on the two last arguments returns and 2 if it does not. *)
Theorem main_exit_status sched unit flHelp os_Args :
  exit_status (outcome (main QueryEscape json_Decode net sched unit flHelp os_Args)) =
  (if (negb (unit =? "km") && negb (unit =? "miles"))%string then 1
   else if flHelp then 0
   else if (List.length os_Args <? 3)%nat then 1
   else match outcome (GetDistance QueryEscape json_Decode net sched {| APIKey := "" |}
                         (nth (List.length os_Args - 2) os_Args ""%string)
                         (nth (List.length os_Args - 1) os_Args ""%string) unit) with
        | Return _ => 0
        | _ => 2
        end)%Z.
Proof.
  destruct (negb (unit =? "km") && negb (unit =? "miles"))%string eqn:Hunit.
  - rewrite main_usage_path by auto. rewrite Hunit. reflexivity.
  - destruct flHelp.
    + rewrite main_usage_path by auto. rewrite Hunit. reflexivity.
    + destruct (List.length os_Args <? 3)%nat eqn:Hlen.
      * apply Nat.ltb_lt in Hlen. rewrite main_usage_path by auto. rewrite Hunit. reflexivity.
      * apply Nat.ltb_ge in Hlen. rewrite (@main_lookup_path sched unit os_Args Hunit Hlen).
        cbv zeta.
        destruct (GetDistance_ends sched {| APIKey := "" |}
                    (nth (List.length os_Args - 2) os_Args ""%string)
                    (nth (List.length os_Args - 1) os_Args ""%string) unit)
          as [t [E|[d E]]]; rewrite E; reflexivity.
Qed.


(** X17. [main] sends a request only when the unit is valid, [--help] is unset and
    there are at least three arguments; every request it sends is for one of
    the two last arguments and carries no [key] parameter. *)
Theorem main_requests sched unit flHelp os_Args url :
  In url (http_requests (trace (main QueryEscape json_Decode net sched unit flHelp os_Args))) ->
  ((unit = "km" \/ unit = "miles") /\ flHelp = false /\ (3 <= List.length os_Args)%nat)%string /\
  exists q,
    (q = nth (List.length os_Args - 2) os_Args ""%string \/
     q = nth (List.length os_Args - 1) os_Args ""%string) /\
    url = ("https://maps.googleapis.com/maps/api/geocode/json"
             ++ "?sensor=false&address=" ++ QueryEscape q)%string.
Proof.
  destruct (negb (unit =? "km") && negb (unit =? "miles"))%string eqn:Hunit.
  { rewrite main_usage_path by auto. cbn. tauto. }
  destruct flHelp.
  { rewrite main_usage_path by auto. cbn. tauto. }
  destruct (Nat.lt_ge_cases (List.length os_Args) 3) as [Hlen|Hlen].
  { rewrite main_usage_path by auto. cbn. tauto. }
  intros Hin. split.
  { split; [|auto].
    apply andb_false_iff in Hunit.
    destruct Hunit as [H|H]; apply negb_false_iff, String.eqb_eq in H; auto. }
  rewrite (@main_lookup_path sched unit os_Args Hunit Hlen) in Hin. cbv zeta in Hin.
  set (q1 := nth (List.length os_Args - 2) os_Args ""%string) in *.
  set (q2 := nth (List.length os_Args - 1) os_Args ""%string) in *.
  assert (Hreq : In url [request_url QueryEscape {| APIKey := "" |} q1;
                         request_url QueryEscape {| APIKey := "" |} q2]).
  { destruct (GetDistance_cases QueryEscape json_Decode net sched {| APIKey := "" |} q1 q2 unit)
      as (a & b & e1 & e2 & _ & _ & E).
    rewrite E in Hin.
    destruct sched; rewrite receive_loop_two in Hin;
      destruct a, b; cbn in Hin; cbn; tauto. }
  cbn in Hreq. destruct Hreq as [H|[H|[]]]; subst url; eauto.
Qed.

(** X18. [main] prints a number only in a run that ends normally, and the number
    is the one [GetDistance] returned for the two last arguments: a usage
    error or a failed lookup never leaves a number on standard output. *)
Theorem main_prints_only_the_distance sched unit flHelp os_Args x :
  In (Stdout_Printf_f x) (trace (main QueryEscape json_Decode net sched unit flHelp os_Args)) ->
  outcome (main QueryEscape json_Decode net sched unit flHelp os_Args) = Return tt /\
  outcome (GetDistance QueryEscape json_Decode net sched {| APIKey := "" |}
             (nth (List.length os_Args - 2) os_Args ""%string)
             (nth (List.length os_Args - 1) os_Args ""%string) unit) = Return (x, None).
Proof.
  destruct (negb (unit =? "km") && negb (unit =? "miles"))%string eqn:Hunit.
  { rewrite main_usage_path by auto. cbn. intuition discriminate. }
  destruct flHelp.
  { rewrite main_usage_path by auto. cbn. intuition discriminate. }
  destruct (Nat.lt_ge_cases (List.length os_Args) 3) as [Hlen|Hlen].
  { rewrite main_usage_path by auto. cbn. intuition discriminate. }
  rewrite (@main_lookup_path sched unit os_Args Hunit Hlen). cbv zeta.
  set (q1 := nth (List.length os_Args - 2) os_Args ""%string).
  set (q2 := nth (List.length os_Args - 1) os_Args ""%string).
  destruct (GetDistance_cases QueryEscape json_Decode net sched {| APIKey := "" |} q1 q2 unit)
    as (a & b & e1 & e2 & _ & _ & E).
  rewrite E.
  destruct sched; rewrite receive_loop_two;
    destruct a, b; cbn;
    intros H; repeat (destruct H as [H|H]; try discriminate); try contradiction;
    inversion H; subst; split; reflexivity.
Qed.


End MainEdges.

(** ** The distance engine: the great circle *)






(** X22. In binary64 the two unit conversions commute with negation, bit for bit:
    [GetRadians(-d) = -GetRadians(d)] and [KM2Miles(-d) = -KM2Miles(d)]. *)
Theorem conversions_b64_odd (Sin Cos : float -> float) (Atan2 : float -> float -> float)
    (d : float) :
  @GetRadians (Binary64 Sin Cos Atan2) (- d)%float
    = (- @GetRadians (Binary64 Sin Cos Atan2) d)%float /\
  @KM2Miles (Binary64 Sin Cos Atan2) (- d)%float
    = (- @KM2Miles (Binary64 Sin Cos Atan2) d)%float.
Proof.
  split.
  - exact (@GetRadians_opp (Binary64 Sin Cos Atan2) PrimFloat.opp
             b64_mul_opp_l b64_div_opp_l d).
  - apply b64_mul_opp_l.
Qed.

(** ** The further properties at work on the example world *)

Lemma main_requests_witness :
  (("km" = "km" \/ "km" = "miles") /\ false = false /\ (3 <= 3)%nat)%string /\
  exists q,
    (q = "London"%string \/ q = "Paris"%string) /\
    ("https://maps.googleapis.com/maps/api/geocode/json" ++ "?sensor=false&address=London")%string
    = ("https://maps.googleapis.com/maps/api/geocode/json"
         ++ "?sensor=false&address=" ++ url_QueryEscape q)%string.
Proof.
  apply (@main_requests Exact url_QueryEscape example_Decode example_net FirstQueryFirst
           "km" false ["go-city-distance"; "London"; "Paris"]%string
           ("https://maps.googleapis.com/maps/api/geocode/json"
              ++ "?sensor=false&address=London")%string).
  left. reflexivity.
Defined.

Lemma main_prints_only_the_distance_witness :
  outcome (@main Exact url_QueryEscape example_Decode example_net FirstQueryFirst "km" false
             ["go-city-distance"; "London"; "Paris"]%string) = Return tt /\
  outcome (@GetDistance Exact url_QueryEscape example_Decode example_net FirstQueryFirst
             {| APIKey := "" |} "London" "Paris" "km")
  = Return (@geoDistance Exact London Paris, None).
Proof.
  apply (@main_prints_only_the_distance Exact url_QueryEscape example_Decode example_net
           FirstQueryFirst "km" false ["go-city-distance"; "London"; "Paris"]%string
           (@geoDistance Exact London Paris)).
  do 4 right. left. reflexivity.
Defined.



(** ** The geocoder: what it reads of a response *)

Section GeocoderReads.
Context {F : Float64}.
Variable QueryEscape : string -> string.
Variable json_Decode : string -> DecodeResult.

(** X23. [GetLocation] reads nothing of a decoded response but its first
    candidate: with the status replaced by any other string and every
    candidate after the first removed, it behaves the same.  A provider
    status such as a denied request or an exhausted quota, which comes with no
    candidates, is therefore reported as NotFound. *)
Theorem GetLocation_reads_first_candidate_only
    (http_Get : string -> HttpResult) (status : string) g q :
  GetLocation QueryEscape
    (fun body => match json_Decode body with
                 | Decoded r => Decoded {| Status := status; Results := firstn 1 (Results r) |}
                 | DecodeFailed err => DecodeFailed err
                 end) http_Get g q
  = GetLocation QueryEscape json_Decode http_Get g q.
Proof.
  unfold GetLocation.
  destruct (http_Get _) as [body|err]; [|reflexivity].
  destruct (json_Decode body) as [r|err]; [|reflexivity].
  destruct (Results r) as [|r0 rs]; reflexivity.
Qed.

End GeocoderReads.

(** ** The distance engine: distinct points *)




